(** * Progressive income tax by year-specific marginal brackets

    A shallow embedding of the bracket engine of [app.py]: the registry
    [TAX_BRACKETS_BY_YEAR], [calculate_tax], [get_bracket_breakdown] and the
    summary figures the page derives from them (taxable income, total tax,
    effective rate, net income).

    Python computes on numbers without naming their type: the page feeds the
    engine integers, the rates are decimal literals read as binary64 floats.
    The engine is therefore written once over an interface [Number] of the
    operations it uses, and instantiated twice:
    - [Q], exact rational arithmetic, in which a decimal literal denotes the
      rational it spells (the reading of the specification);
    - [float], IEEE 754 binary64 with round-to-nearest-even, in which a
      literal denotes the nearest double (what CPython computes; the
      integers of the page, at most 10,000,000, and the bounds of the
      tables are doubles, and the integer operations Python performs on
      them before the first product with a rate are exact on doubles).

    Statements that hold whatever the arithmetic are proved over [Number];
    the order and bound properties of the tax are proved over [Q]; concrete
    scenarios are evaluated in both. *)

From Stdlib Require Import QArith Qminmax Qround Qabs Lqa Lia.
From Stdlib Require Import Floats Uint63 DecimalString Ascii String List.
From Stdlib Require OrderedTypeEx.
From stdpp Require Import gmap strings sorting.

Local Open Scope Q_scope.

(** ** Numbers *)

(** What the engine asks of a number: the value of a literal of the source,
    [+], [-], [*], [/], the comparison [<] (Python's [a > b] is [b < a]), and
    fixed-point formatting [f"{x:,.2f}"] / [f"{x:.0f}"] (grouping flag, then
    the number of decimals). *)
Class Number (num : Type) := {
  nlit : Q -> num;
  nadd : num -> num -> num;
  nsub : num -> num -> num;
  nmul : num -> num -> num;
  ndiv : num -> num -> num;
  nlt : num -> num -> bool;
  nformat : bool -> nat -> num -> string
}.

(** *** Fixed-point formatting of an exact value *)

(** Nearest integer to a non-negative rational, ties to even: the rounding
    of Python's [f] presentation type, which acts on the exact value. *)
Definition round_half_even (q : Q) : Z :=
  let n := Qfloor q in
  match Qcompare (q - inject_Z n) (1 # 2) with
  | Lt => n
  | Gt => (n + 1)%Z
  | Eq => if Z.even n then n else (n + 1)%Z
  end.

Definition digits (z : Z) : list ascii :=
  list_ascii_of_string (NilZero.string_of_uint (N.to_uint (Z.to_N z))).

(** Thousands separators, on the digits read from the right. *)
Fixpoint group3 (rev_digits : list ascii) : list ascii :=
  match rev_digits with
  | a :: b :: c :: ((_ :: _) as rest) => a :: b :: c :: ","%char :: group3 rest
  | _ => rev_digits
  end.

Definition pad_zeros (width : nat) (ds : list ascii) : list ascii :=
  repeat "0"%char (width - length ds) ++ ds.

(** [format_abs grouped prec q]: the magnitude of [q] with [prec] decimals. *)
Definition format_abs (grouped : bool) (prec : nat) (q : Q) : string :=
  let scale := (10 ^ Z.of_nat prec)%Z in
  let scaled := round_half_even (Qabs q * inject_Z scale) in
  let int_digits := digits (scaled / scale) in
  let int_part := if grouped then rev (group3 (rev int_digits)) else int_digits in
  let frac_part :=
    match prec with
    | O => []
    | _ => "."%char :: pad_zeros prec (digits (scaled mod scale))
    end in
  string_of_list_ascii (int_part ++ frac_part).

Definition format_Q (grouped : bool) (prec : nat) (q : Q) : string :=
  ((if Qlt_le_dec q 0 then "-" else "") ++ format_abs grouped prec q)%string.

(** *** Exact rationals *)

Definition Qltb (a b : Q) : bool := negb (Qle_bool b a).

#[export] Instance Number_Q : Number Q := {|
  nlit := fun q => q;
  nadd := Qplus;
  nsub := Qminus;
  nmul := Qmult;
  ndiv := Qdiv;
  nlt := Qltb;
  nformat := format_Q
|}.

(** *** Binary64 floats *)

Definition float_of_Z (z : Z) : float :=
  match z with
  | Zneg p => PrimFloat.opp (PrimFloat.of_uint63 (Uint63.of_Z (Zpos p)))
  | _ => PrimFloat.of_uint63 (Uint63.of_Z z)
  end.

(** A decimal literal [n / 10^k] with [n] and [10^k] below [2^53] is read as
    the double nearest to it, which is the correctly rounded quotient of the
    two (exactly represented) integers. *)
Definition float_of_lit (q : Q) : float :=
  PrimFloat.div (float_of_Z (Qnum q)) (float_of_Z (Zpos (Qden q))).

(** The rational a finite float stands for, from its sign, mantissa and
    exponent. *)
Definition Q_of_finite (s : bool) (m : positive) (e : Z) : Q :=
  let mag := inject_Z (Zpos m) * (2 # 1) ^ e in
  if s then - mag else mag.

Definition format_float (grouped : bool) (prec : nat) (x : float) : string :=
  match Prim2SF x with
  | S754_zero s => ((if s then "-" else "") ++ format_abs grouped prec 0)%string
  | S754_infinity s => if s then "-inf"%string else "inf"%string
  | S754_nan => "nan"%string
  | S754_finite s m e =>
      ((if s then "-" else "") ++ format_abs grouped prec (Q_of_finite s m e))%string
  end.

#[export] Instance Number_float : Number float := {|
  nlit := float_of_lit;
  nadd := PrimFloat.add;
  nsub := PrimFloat.sub;
  nmul := PrimFloat.mul;
  ndiv := PrimFloat.div;
  nlt := PrimFloat.ltb;
  nformat := format_float
|}.

(** ** The engine, over any [Number] *)

Section Engine.
Context {num : Type} {N : Number num}.

(** Python's [a > b], and the built-ins [min(a, b)] and [max(a, b)]: the
    second argument replaces the first when it compares strictly below
    (resp. above) it. *)
Definition ngt (a b : num) : bool := nlt b a.
Definition py_min (a b : num) : num := if nlt b a then b else a.
Definition py_max (a b : num) : num := if ngt b a then b else a.

(** The ["max"] of a bracket: a number, or [float('inf')] for the open top
    bracket. *)
Inductive bound : Type :=
| Fin (u : num)
| Inf.

(** [{"min": ..., "max": ..., "rate": ...}] *)
Record bracket : Type := {
  b_min : num;
  b_max : bound;
  b_rate : num
}.

(** [min(income, bracket["max"])]; nothing compares below [income] against
    infinity, so the first argument is kept. *)
Definition min_bound (income : num) (m : bound) : num :=
  match m with
  | Fin u => py_min income u
  | Inf => income
  end.

Definition mk_bracket (lo : Q) (hi : option Q) (rate : Q) : bracket :=
  {| b_min := nlit lo;
     b_max := match hi with Some u => Fin (nlit u) | None => Inf end;
     b_rate := nlit rate |}.

Definition TAX_BRACKETS_BY_YEAR : gmap string (list bracket) :=
  <["2025" := [
      mk_bracket 0 (Some 10064) 0.00;
      mk_bracket 10064 (Some 25659) 0.11;
      mk_bracket 25659 (Some 73369) 0.30;
      mk_bracket 73369 (Some 157806) 0.41;
      mk_bracket 157806 None 0.45 ]]>
 (<["2024" := [
      mk_bracket 0 (Some 9875) 0.00;
      mk_bracket 9875 (Some 25175) 0.10;
      mk_bracket 25175 (Some 72000) 0.28;
      mk_bracket 72000 (Some 155000) 0.40;
      mk_bracket 155000 None 0.44 ]]>
 (<["2023" := [
      mk_bracket 0 (Some 9325) 0.00;
      mk_bracket 9325 (Some 24500) 0.10;
      mk_bracket 24500 (Some 70500) 0.27;
      mk_bracket 70500 (Some 152000) 0.39;
      mk_bracket 152000 None 0.43 ]]>
 (<["2022" := [
      mk_bracket 0 (Some 8900) 0.00;
      mk_bracket 8900 (Some 23850) 0.09;
      mk_bracket 23850 (Some 68500) 0.26;
      mk_bracket 68500 (Some 148000) 0.38;
      mk_bracket 148000 None 0.42 ]]> ∅))).

(** [TAX_BRACKETS_BY_YEAR.get(year, TAX_BRACKETS_BY_YEAR["2025"])] *)
Definition brackets_of (year : string) : list bracket :=
  default (TAX_BRACKETS_BY_YEAR !!! "2025"%string) (TAX_BRACKETS_BY_YEAR !! year).

(** The two assignments in the body of both loops. *)
Definition taxable_in_bracket (income : num) (b : bracket) : num :=
  nsub (min_bound income (b_max b)) (b_min b).

Definition tax_in_bracket (income : num) (b : bracket) : num :=
  nmul (taxable_in_bracket income b) (b_rate b).

(** One iteration of the loop of [calculate_tax], on the running total. *)
Definition tax_step (income : num) (total_tax : num) (b : bracket) : num :=
  if ngt income (b_min b)
  then nadd total_tax (tax_in_bracket income b)
  else total_tax.

Definition calculate_tax_in (income : num) (brackets : list bracket) : num :=
  fold_left (tax_step income) brackets (nlit 0).

Definition calculate_tax (income : num) (year : string) : num :=
  calculate_tax_in income (brackets_of year).

(** An entry of the breakdown: the four display strings, under the keys
    ["Tranche"], ["Taux"], ["Revenu Imposable"] and ["Montant d'Impôt"], and
    the raw tax under ["tax_amount_raw"]. *)
Record entry : Type := {
  Tranche : string;
  Taux : string;
  Revenu_Imposable : string;
  Montant_d_Impot : string;
  tax_amount_raw : num
}.

Definition bracket_name (b : bracket) : string :=
  match b_max b with
  | Inf => (nformat true 0 (b_min b) ++ " $ +")%string
  | Fin u => (nformat true 0 (b_min b) ++ " $ - " ++ nformat true 0 u ++ " $")%string
  end.

(** The dictionary appended for a bracket the income reaches into. (The
    loop also assigns a variable [max_val] that it never reads.) *)
Definition entry_of (income : num) (b : bracket) : entry :=
  {| Tranche := bracket_name b;
     Taux := (nformat false 0 (nmul (b_rate b) (nlit 100)) ++ "%")%string;
     Revenu_Imposable := (nformat true 2 (taxable_in_bracket income b) ++ " $")%string;
     Montant_d_Impot := (nformat true 2 (tax_in_bracket income b) ++ " $")%string;
     tax_amount_raw := tax_in_bracket income b |}.

(** One iteration of the loop of [get_bracket_breakdown], on the list built
    so far. *)
Definition breakdown_step (income : num) (breakdown : list entry) (b : bracket)
  : list entry :=
  if ngt income (b_min b)
  then breakdown ++ [entry_of income b]
  else breakdown.

Definition get_bracket_breakdown_in (income : num) (brackets : list bracket)
  : list entry :=
  fold_left (breakdown_step income) brackets [].

Definition get_bracket_breakdown (income : num) (year : string) : list entry :=
  get_bracket_breakdown_in income (brackets_of year).

(** Adding up a column of numbers from [0], left to right. *)
Definition total (xs : list num) : num := fold_left nadd xs (nlit 0).

(** The figures of the summary panel, computed by the page from the gross
    income and the totals of deductions and credits once [income > 0]. *)
Record summary : Type := {
  taxable_income : num;
  gross_tax : num;
  total_tax : num;
  effective_rate : num;
  net_income : num
}.

Definition summarize (income total_deductions total_credits : num)
  : option summary :=
  if ngt income (nlit 0) then
    let taxable_income := py_max (nlit 0) (nsub income total_deductions) in
    let gross_tax := calculate_tax taxable_income "2025" in
    let total_tax := py_max (nlit 0) (nsub gross_tax total_credits) in
    let effective_rate :=
      if ngt income (nlit 0)
      then nmul (ndiv total_tax income) (nlit 100)
      else nlit 0 in
    let net_income := nsub income total_tax in
    Some {| taxable_income := taxable_income;
            gross_tax := gross_tax;
            total_tax := total_tax;
            effective_rate := effective_rate;
            net_income := net_income |}
  else None.

(** The texts of a row, as the table widget shows them. *)
Definition row_text (e : entry) : string * string * string * string :=
  (Tranche e, Taux e, Revenu_Imposable e, Montant_d_Impot e).

(** [f"{x:,.2f} $"] and [f"{x:.2f}%"], the texts of the metrics. *)
Definition display_money (x : num) : string :=
  (nformat true 2 x ++ " $")%string.

Definition display_rate (x : num) : string :=
  (nformat false 2 x ++ "%")%string.

(** The keys of the registry. *)
Definition registered_years : list string :=
  ["2025"; "2024"; "2023"; "2022"]%string.

(** The algorithm as the specification words it: the brackets whose lower
    bound lies strictly below the income, in table order, each contributing
    [(min(income, upper) - lower) * rate]; the tax is the sum of the
    contributions. *)
Definition reaches_into (income : num) (b : bracket) : bool :=
  nlt (b_min b) income.

Definition marginal_stacking (income : num) (brackets : list bracket) : num :=
  total (map (fun b => nmul (nsub (min_bound income (b_max b)) (b_min b)) (b_rate b))
             (List.filter (reaches_into income) brackets)).

End Engine.

Arguments bound : clear implicits.
Arguments bracket : clear implicits.
Arguments entry : clear implicits.
Arguments summary : clear implicits.

(** ** The rest of the page: charts, scenarios and years *)

(** Python's [sorted] on strings: the ascending arrangement of the list
    under the code-point order, which on strings is a total order with equal
    elements identical, so that any sorting algorithm yields it. *)
Definition str_le (a b : string) : Prop := String.leb a b = true.

#[export] Instance str_le_dec : RelDecision str_le.
Proof. intros a b. unfold str_le. apply _. Defined.

Definition sorted (l : list string) : list string := merge_sort str_le l.

(** [enumerate(l)] *)
Definition enumerate {A : Type} (l : list A) : list (nat * A) :=
  combine (seq 0 (length l)) l.

(** The sign flag of [f"{x:+.2f}"], on the text without it: a minus sign is
    already there, anything else gets a plus. *)
Definition with_sign (s : string) : string :=
  match s with
  | String "-" _ => s
  | _ => ("+" ++ s)%string
  end.

Definition color_palette : list string :=
  ["#FFB6C1"; "#FFD700"; "#87CEEB"; "#98FB98"; "#FFA07A"]%string.

Section Pages.
Context {num : Type} {N : Number num}.

(** *** The bar chart of the income by bracket (first tab) *)

(** [{"name": ..., "min": ..., "max": ...}]: a bracket of 2025 with the open
    end of the top one replaced by a number beyond the income. *)
Record bracket_range : Type := {
  range_name : string;
  range_min : num;
  range_max : num
}.

Definition bracket_range_of (taxable_income : num) (b : bracket num)
  : bracket_range :=
  match b_max b with
  | Inf =>
      {| range_name := (nformat true 0 (b_min b) ++ " $ +")%string;
         range_min := b_min b;
         range_max := py_max (nadd taxable_income (nlit 1000))
                             (nadd (b_min b) (nlit 10000)) |}
  | Fin u =>
      {| range_name :=
           (nformat true 0 (b_min b) ++ " $ - " ++ nformat true 0 u ++ " $")%string;
         range_min := b_min b;
         range_max := u |}
  end.

Definition bracket_ranges (taxable_income : num) : list bracket_range :=
  fold_left (fun ranges b => ranges ++ [bracket_range_of taxable_income b])
            (TAX_BRACKETS_BY_YEAR !!! "2025"%string) [].

(** The three lists the second loop fills. *)
Record bars : Type := {
  bracket_names : list string;
  income_in_bracket : list num;
  colors_bar : list string
}.

(** One iteration; [None] stands for the [IndexError] of
    [color_palette[idx]]. *)
Definition bar_step (taxable_income : num) (state : option bars)
    (item : nat * bracket_range) : option bars :=
  match state with
  | None => None
  | Some lists =>
      let (idx, b) := item in
      let names := bracket_names lists ++ [range_name b] in
      if ngt taxable_income (range_min b) then
        let amount := nsub (py_min taxable_income (range_max b)) (range_min b) in
        match color_palette !! idx with
        | Some color =>
            Some {| bracket_names := names;
                    income_in_bracket := income_in_bracket lists ++ [amount];
                    colors_bar := colors_bar lists ++ [color] |}
        | None => None
        end
      else
        Some {| bracket_names := names;
                income_in_bracket := income_in_bracket lists ++ [nlit 0];
                colors_bar := colors_bar lists ++ ["#F5E6FF"%string] |}
  end.

Definition income_bars (taxable_income : num) : option bars :=
  fold_left (bar_step taxable_income)
            (enumerate (bracket_ranges taxable_income))
            (Some {| bracket_names := []; income_in_bracket := [];
                     colors_bar := [] |}).

(** What the loop appends to [income_in_bracket] for a range. *)
Definition bar_amount (taxable_income : num) (b : bracket_range) : num :=
  if ngt taxable_income (range_min b)
  then nsub (py_min taxable_income (range_max b)) (range_min b)
  else nlit 0.

(** The text on each bar: [f"{val:,.0f} $" if val > 0 else ""]. *)
Definition bar_texts (values : list num) : list string :=
  map (fun val => if ngt val (nlit 0)
                  then (nformat true 0 val ++ " $")%string
                  else ""%string) values.

(** *** A scenario of the comparison tab *)

(** The dictionary appended to [scenarios]. *)
Record scenario : Type := {
  sc_income : num;
  sc_deductions : num;
  sc_credits : num;
  sc_taxable_income : num;
  sc_tax_owed : num;
  sc_effective_rate : num;
  sc_net_income : num
}.

Definition compare_scenario
    (scenario_income scenario_deductions scenario_credits : num) : scenario :=
  let taxable := py_max (nlit 0) (nsub scenario_income scenario_deductions) in
  let gross_tax := calculate_tax taxable "2025" in
  let total_tax := py_max (nlit 0) (nsub gross_tax scenario_credits) in
  let effective_rate :=
    if ngt scenario_income (nlit 0)
    then nmul (ndiv total_tax scenario_income) (nlit 100)
    else nlit 0 in
  let net_income := nsub scenario_income total_tax in
  {| sc_income := scenario_income;
     sc_deductions := scenario_deductions;
     sc_credits := scenario_credits;
     sc_taxable_income := taxable;
     sc_tax_owed := total_tax;
     sc_effective_rate := effective_rate;
     sc_net_income := net_income |}.

(** *** The comparison by year (third tab) *)

(** The figures charted for a year. *)
Record year_comparison : Type := {
  yc_year : string;
  yc_tax : num;
  yc_effective_rate : num;
  yc_net_income : num
}.

Definition year_comparison_of (hist_income : num) (year : string)
  : year_comparison :=
  let tax := calculate_tax hist_income year in
  let effective_rate :=
    if ngt hist_income (nlit 0)
    then nmul (ndiv tax hist_income) (nlit 100)
    else nlit 0 in
  let net_income := nsub hist_income tax in
  {| yc_year := year; yc_tax := tax;
     yc_effective_rate := effective_rate; yc_net_income := net_income |}.

(** The guard [if selected_years and hist_income > 0] of both blocks. *)
Definition history_shown (hist_income : num) (selected_years : list string)
  : bool :=
  match selected_years with
  | [] => false
  | _ :: _ => ngt hist_income (nlit 0)
  end.

Definition year_comparisons (hist_income : num) (selected_years : list string)
  : option (list year_comparison) :=
  if history_shown hist_income selected_years then
    Some (fold_left
            (fun rows year => rows ++ [year_comparison_of hist_income year])
            selected_years [])
  else None.

(** The columns of the table by year. *)
Record hist_data : Type := {
  Annee : list string;
  Impot_Du : list string;
  Taux_Effectif : list string;
  Revenu_Net : list string;
  Difference_vs_Annee_Precedente : list string
}.

(** [f"{diff:+,.2f} $ ({diff_pct:+.2f}%)"] *)
Definition difference_text (tax prev_tax : num) : string :=
  let diff := nsub tax prev_tax in
  let diff_pct :=
    if ngt prev_tax (nlit 0)
    then nmul (ndiv diff prev_tax) (nlit 100)
    else nlit 0 in
  (with_sign (nformat true 2 diff) ++ " $ ("
   ++ with_sign (nformat false 2 diff_pct) ++ "%)")%string.

(** One iteration of the loop over the sorted years, on the columns and
    [prev_tax] ([None] for Python's [None]). *)
Definition hist_step (hist_income : num) (state : hist_data * option num)
    (year : string) : hist_data * option num :=
  let (data, prev_tax) := state in
  let tax := calculate_tax hist_income year in
  let effective_rate :=
    if ngt hist_income (nlit 0)
    then nmul (ndiv tax hist_income) (nlit 100)
    else nlit 0 in
  let net_income := nsub hist_income tax in
  ({| Annee := Annee data ++ [year];
      Impot_Du := Impot_Du data ++ [display_money tax];
      Taux_Effectif := Taux_Effectif data ++ [display_rate effective_rate];
      Revenu_Net := Revenu_Net data ++ [display_money net_income];
      Difference_vs_Annee_Precedente :=
        Difference_vs_Annee_Precedente data
        ++ [match prev_tax with
            | Some prev => difference_text tax prev
            | None => "N/A"%string
            end] |},
   Some tax).

Definition history_table (hist_income : num) (selected_years : list string)
  : option hist_data :=
  if history_shown hist_income selected_years then
    Some (fst (fold_left (hist_step hist_income) (sorted selected_years)
                 ({| Annee := []; Impot_Du := []; Taux_Effectif := [];
                     Revenu_Net := [];
                     Difference_vs_Annee_Precedente := [] |}, None)))
  else None.

End Pages.

Arguments bracket_range : clear implicits.
Arguments bars : clear implicits.
Arguments scenario : clear implicits.
Arguments year_comparison : clear implicits.
Arguments hist_data : clear implicits.

(** ** Bracket tables in exact arithmetic *)

(** The invariant of a bracket table: the first lower bound is [lo], every
    bracket is non-empty, each upper bound is the next lower bound, the last
    bracket (and only the last) is open, and every rate is a fraction of 1. *)
Fixpoint partitions_from (lo : Q) (brackets : list (bracket Q)) : bool :=
  match brackets with
  | [] => false
  | b :: rest =>
      Qeq_bool (b_min b) lo && Qle_bool 0 (b_rate b) && Qle_bool (b_rate b) 1
      && match b_max b with
         | Inf => match rest with [] => true | _ :: _ => false end
         | Fin u => Qltb lo u && partitions_from u rest
         end
  end.

Definition valid_table (brackets : list (bracket Q)) : bool :=
  partitions_from 0 brackets.




(** ** Both loops as a filter *)

Section Loops.
Context {num : Type} {N : Number num}.
Implicit Types (income : num) (b : bracket num) (brackets : list (bracket num)).

Lemma registry_default :
  TAX_BRACKETS_BY_YEAR (num := num) !! "2025"%string
  = Some (brackets_of "2025").
Proof. reflexivity. Qed.

Lemma brackets_of_unknown (year : string) :
  TAX_BRACKETS_BY_YEAR (num := num) !! year = None ->
  brackets_of (num := num) year = brackets_of "2025".
Proof. unfold brackets_of. intros ->. reflexivity. Qed.

(** Whatever the year string, the table used is one of the four of the
    registry. *)
Lemma brackets_of_registered (year : string) :
  In (brackets_of (num := num) year) (map brackets_of registered_years).
Proof.
  unfold brackets_of at 1.
  destruct (TAX_BRACKETS_BY_YEAR !! year) as [t|] eqn:E; simpl default.
  - unfold TAX_BRACKETS_BY_YEAR in E.
    repeat (apply lookup_insert_Some in E as [[_ <-]|[_ E]];
            [simpl; tauto|]).
    rewrite lookup_empty in E. discriminate.
  - simpl. left. reflexivity.
Qed.

Lemma tax_loop_filter income brackets (acc : num) :
  fold_left (tax_step income) brackets acc
  = fold_left nadd
      (map (tax_in_bracket income)
           (List.filter (reaches_into income) brackets)) acc.
Proof.
  revert acc. induction brackets as [|b rest IH]; intros acc; [reflexivity|].
  simpl fold_left. rewrite IH. simpl List.filter. unfold tax_step, ngt.
  change (nlt (b_min b) income) with (reaches_into income b).
  destruct (reaches_into income b); reflexivity.
Qed.

Lemma breakdown_loop_filter income brackets (acc : list (entry num)) :
  fold_left (breakdown_step income) brackets acc
  = acc ++ map (entry_of income)
             (List.filter (reaches_into income) brackets).
Proof.
  revert acc. induction brackets as [|b rest IH]; intros acc.
  - simpl. rewrite app_nil_r. reflexivity.
  - simpl fold_left. rewrite IH. simpl List.filter. unfold breakdown_step, ngt.
    change (nlt (b_min b) income) with (reaches_into income b).
    destruct (reaches_into income b); [|reflexivity].
    rewrite <- app_assoc. reflexivity.
Qed.

Lemma breakdown_in_filter income brackets :
  get_bracket_breakdown_in income brackets
  = map (entry_of income)
        (List.filter (reaches_into income) brackets).
Proof. apply (breakdown_loop_filter income brackets []). Qed.

Lemma raw_amounts income brackets :
  map tax_amount_raw (map (entry_of income) brackets)
  = map (tax_in_bracket income) brackets.
Proof. rewrite map_map. reflexivity. Qed.


Lemma breakdown_total_in income brackets :
  total (map tax_amount_raw (get_bracket_breakdown_in income brackets))
  = calculate_tax_in income brackets.
Proof.
  unfold calculate_tax_in, total.
  rewrite breakdown_in_filter, raw_amounts, tax_loop_filter. reflexivity.
Qed.

End Loops.

(** C1. In either arithmetic, for every year string and every income, the
    raw tax amounts of the entries of [get_bracket_breakdown], added up from
    [0] in the order of the entries, give [calculate_tax] exactly. *)
Theorem breakdown_sums_to_tax :
  forall (num : Type) (N : Number num) (income : num) (year : string),
    total (map tax_amount_raw (get_bracket_breakdown income year))
    = calculate_tax income year.
Proof.
  intros num N income year. apply breakdown_total_in.
Qed.

(** C2. In either arithmetic, for every bracket table and every income,
    [calculate_tax] is the sum, in table order, of
    [(min(income, upper) - lower) * rate] over the brackets whose lower bound
    is strictly below the income; and (over the rationals) a bracket with
    [income <= lower] leaves the running total as it is. *)
Theorem tax_is_marginal_stacking :
  (forall (num : Type) (N : Number num) (income : num)
          (brackets : list (bracket num)),
      calculate_tax_in income brackets = marginal_stacking income brackets)
  /\ (forall (num : Type) (N : Number num) (income : num) (year : string),
      calculate_tax income year = marginal_stacking income (brackets_of year))
  /\ (forall (income : Q) (b : bracket Q) (total_tax : Q),
      income <= b_min b -> tax_step income total_tax b = total_tax).
Proof.
  split; [|split].
  - intros num N income brackets.
    unfold calculate_tax_in. rewrite tax_loop_filter. reflexivity.
  - intros num N income year.
    unfold calculate_tax, calculate_tax_in. rewrite tax_loop_filter. reflexivity.
  - intros income b total_tax Hle.
    unfold tax_step, ngt. cbn [nlt Number_Q]. unfold Qltb.
    apply Qle_bool_iff in Hle. rewrite Hle. reflexivity.
Qed.

Lemma tax_is_marginal_stacking_witness :
  10064 <= b_min (mk_bracket (num := Q) 10064 (Some 25659) 0.11)
  /\ tax_step 10064 0 (mk_bracket (num := Q) 10064 (Some 25659) 0.11) = 0.
Proof.
  split.
  - vm_compute. discriminate.
  - apply (proj2 (proj2 tax_is_marginal_stacking)). vm_compute. discriminate.
Defined.

(** C4. In either arithmetic, a year string that is not a key of the registry
    resolves to the table of 2025, which the registry holds: the tax and
    the breakdown are those of the year 2025. *)
Theorem unknown_year_is_2025 :
  forall (num : Type) (N : Number num) (year : string) (income : num),
    TAX_BRACKETS_BY_YEAR (num := num) !! year = None ->
    TAX_BRACKETS_BY_YEAR (num := num) !! "2025"%string
      = Some (brackets_of year)
    /\ calculate_tax income year = calculate_tax income "2025"
    /\ get_bracket_breakdown income year = get_bracket_breakdown income "2025".
Proof.
  intros num N year income Hnone.
  unfold calculate_tax, get_bracket_breakdown.
  rewrite (brackets_of_unknown year Hnone).
  split; [apply registry_default | split; reflexivity].
Qed.

Lemma unknown_year_is_2025_witness :
  TAX_BRACKETS_BY_YEAR (num := Q) !! "1999"%string = None
  /\ TAX_BRACKETS_BY_YEAR (num := Q) !! "2025"%string
     = Some (brackets_of "1999")
  /\ calculate_tax (num := Q) 50000 "1999" = calculate_tax 50000 "2025"
  /\ get_bracket_breakdown (num := Q) 50000 "1999"
     = get_bracket_breakdown 50000 "2025".
Proof.
  split; [reflexivity|].
  apply (unknown_year_is_2025 Q Number_Q "1999" 50000). reflexivity.
Defined.

(** ** Exact arithmetic: tables that partition the incomes *)

Section Exact.
Implicit Types (x y lo acc : Q) (b : bracket Q) (bs : list (bracket Q)).

Lemma Qltb_lt a c : Qltb a c = true <-> a < c.
Proof.
  unfold Qltb. rewrite negb_true_iff, <- not_true_iff_false, Qle_bool_iff.
  split; [apply Qnot_le_lt | apply Qlt_not_le].
Qed.

Lemma Qltb_ge a c : Qltb a c = false <-> c <= a.
Proof. unfold Qltb. rewrite negb_false_iff. apply Qle_bool_iff. Qed.

(** Python's [min] on rationals is the minimum of the library. *)
Lemma py_min_Qmin a c : py_min a c = Qmin a c.
Proof.
  unfold py_min, Qmin, GenericMinMax.gmin. cbn [nlt Number_Q].
  unfold Qltb, Qle_bool, Qcompare.
  rewrite Z.leb_compare.
  destruct (Qnum a * QDen c ?= Qnum c * QDen a)%Z; reflexivity.
Qed.


Lemma min_bound_Q x (m : bound Q) :
  min_bound x m
  = match m with Fin u => if Qltb u x then u else x | Inf => x end.
Proof. destruct m; reflexivity. Qed.

Lemma registry_valid (year : string) :
  valid_table (brackets_of year) = true.
Proof.
  pose proof (brackets_of_registered (num := Q) year) as Hin.
  assert (Hall : forallb valid_table (map brackets_of registered_years) = true)
    by (vm_compute; reflexivity).
  rewrite forallb_forall in Hall. apply Hall, Hin.
Qed.

Lemma partitions_from_cons lo b bs :
  partitions_from lo (b :: bs) = true ->
  b_min b == lo /\ 0 <= b_rate b /\ b_rate b <= 1
  /\ match b_max b with
     | Inf => bs = []
     | Fin u => lo < u /\ partitions_from u bs = true
     end.
Proof.
  simpl. rewrite !andb_true_iff.
  intros [[[Hlo H0] H1] Hmax].
  apply Qeq_bool_iff in Hlo. apply Qle_bool_iff in H0, H1.
  repeat (split; [assumption|]).
  destruct (b_max b) as [u|].
  - apply andb_true_iff in Hmax as [Hu Hrest].
    apply Qltb_lt in Hu. split; assumption.
  - destruct bs; [reflexivity | discriminate].
Qed.

End Exact.

(** Case analysis on the comparisons of a goal. *)
Ltac case_Qltb :=
  match goal with
  | |- context [Qltb ?a ?c] =>
      let H := fresh "Hcmp" in
      destruct (Qltb a c) eqn:H;
      [apply Qltb_lt in H | apply Qltb_ge in H]
  end.

Section Partition.
Implicit Types (x y lo acc eps : Q) (b : bracket Q) (bs : list (bracket Q)).





(** The lower bounds of a partition ascend from its start. *)
Lemma lower_bound_ge bs : forall lo b,
  partitions_from lo bs = true -> In b bs -> lo <= b_min b.
Proof.
  induction bs as [|h rest IH]; intros lo b Hp Hin; [destruct Hin|].
  apply partitions_from_cons in Hp as (Hlo & _ & _ & Hmax).
  destruct Hin as [->|Hin]; [lra|].
  destruct (b_max h) as [u|].
  - destruct Hmax as [Hu Hrest]. specialize (IH u b Hrest Hin). lra.
  - subst rest. destruct Hin.
Qed.

(** Every bracket of a partition is a non-empty range. *)
Lemma bracket_nonempty bs : forall lo b u,
  partitions_from lo bs = true -> In b bs -> b_max b = Fin u -> b_min b < u.
Proof.
  induction bs as [|h rest IH]; intros lo b u Hp Hin Hu; [destruct Hin|].
  apply partitions_from_cons in Hp as (Hlo & _ & _ & Hmax).
  destruct Hin as [->|Hin].
  - rewrite Hu in Hmax. lra.
  - destruct (b_max h) as [uh|]; [|subst rest; destruct Hin].
    destruct Hmax as [_ Hrest]. apply (IH uh); assumption.
Qed.

(** So a bracket the income reaches into holds a positive part of it. *)
Lemma taxable_in_bracket_pos bs lo b x :
  partitions_from lo bs = true -> In b bs -> b_min b < x ->
  0 < taxable_in_bracket x b.
Proof.
  intros Hp Hin Hx. unfold taxable_in_bracket. cbn [nsub Number_Q].
  rewrite min_bound_Q.
  destruct (b_max b) as [u|] eqn:Hu; [|lra].
  pose proof (bracket_nonempty bs lo b u Hp Hin Hu).
  case_Qltb; lra.
Qed.










End Partition.

(** ** Comparisons of binary64 floats *)

Lemma float_ltb_irrefl (x : float) : PrimFloat.ltb x x = false.
Proof.
  rewrite FloatAxioms.ltb_spec. unfold SFltb, SFcompare.
  destruct (Prim2SF x) as [s|s| |s m e]; try (destruct s; reflexivity);
    try reflexivity.
  rewrite Z.compare_refl.
  change (Pcompare m m Eq) with (Pos.compare m m). rewrite Pos.compare_refl.
  destruct s; reflexivity.
Qed.


Lemma registry_float_lower_bounds (year : string) (b : bracket float) :
  In b (brackets_of year) -> PrimFloat.leb (nlit 0) (b_min b) = true.
Proof.
  intros Hb.
  pose proof (brackets_of_registered (num := float) year) as Hin.
  assert (Hall : forallb (forallb (fun b => PrimFloat.leb (nlit 0) (b_min b)))
                         (map brackets_of registered_years) = true)
    by (vm_compute; reflexivity).
  rewrite forallb_forall in Hall. specialize (Hall _ Hin).
  rewrite forallb_forall in Hall. apply Hall, Hb.
Qed.

(** ** The registry in exact arithmetic *)












(** ** Rows of the breakdown *)

Section Rows.
Context {num : Type} {N : Number num}.
Implicit Types (income : num) (b : bracket num) (brackets : list (bracket num)).

Lemma NoDup_map_inj {A B : Type} (f : A -> B) (l : list A) (a a' : A) :
  NoDup (map f l) -> In a l -> In a' l -> f a = f a' -> a = a'.
Proof.
  induction l as [|h t IH]; intros Hnd Ha Ha' Hf; [destruct Ha|].
  simpl in Hnd. apply NoDup_cons in Hnd as [Hnotin Hnd].
  rewrite list_elem_of_In in Hnotin.
  destruct Ha as [->|Ha], Ha' as [->|Ha'].
  - reflexivity.
  - exfalso. apply Hnotin. rewrite Hf. apply in_map. assumption.
  - exfalso. apply Hnotin. rewrite <- Hf. apply in_map. assumption.
  - apply IH; assumption.
Qed.

(** When the range labels of a table tell its brackets apart, the breakdown
    has a row labelled for a bracket exactly when the test [income > min]
    of the loop holds for it. *)
Lemma breakdown_row_iff income brackets b :
  NoDup (map bracket_name brackets) -> In b brackets ->
  (exists e, In e (get_bracket_breakdown_in income brackets)
             /\ Tranche e = bracket_name b)
  <-> ngt income (b_min b) = true.
Proof.
  intros Hnd Hb. rewrite breakdown_in_filter. split.
  - intros (e & He & Hname).
    apply in_map_iff in He as (b' & <- & Hb').
    apply filter_In in Hb' as [Hb' Hreach].
    simpl in Hname.
    rewrite <- (NoDup_map_inj bracket_name brackets b' b Hnd Hb' Hb Hname).
    exact Hreach.
  - intros Hgt. exists (entry_of income b). split; [|reflexivity].
    apply in_map, filter_In. split; assumption.
Qed.

Lemma registry_names (year : string) :
  Forall (fun t => NoDup (map bracket_name t))
         (map (brackets_of (num := num)) registered_years) ->
  NoDup (map bracket_name (brackets_of (num := num) year)).
Proof.
  intros Hall. rewrite Forall_forall in Hall.
  apply Hall. apply list_elem_of_In, brackets_of_registered.
Qed.

End Rows.

Lemma registry_names_Q (year : string) :
  NoDup (map bracket_name (brackets_of (num := Q) year)).
Proof.
  apply registry_names. apply (bool_decide_unpack _). vm_compute. exact I.
Qed.

Lemma registry_names_float (year : string) :
  NoDup (map bracket_name (brackets_of (num := float) year)).
Proof.
  apply registry_names. apply (bool_decide_unpack _). vm_compute. exact I.
Qed.

(** C5. For every year string and income, the breakdown is, in table order,
    one row per bracket whose lower bound is strictly below the income and
    nothing else (either arithmetic); so a bracket of the table has a row
    if and only if its lower bound is strictly below the income, and a
    bracket with [income <= lower] has none (stated over the rationals, and
    over the floats with their comparison). Over the rationals the taxable
    amount of a bracket that has a row is positive. *)
Theorem breakdown_rows :
  (forall (num : Type) (N : Number num) (income : num) (year : string),
      get_bracket_breakdown income year
      = map (entry_of income)
            (List.filter (reaches_into income) (brackets_of year)))
  /\ (forall (year : string) (x : Q) (b : bracket Q),
      In b (brackets_of year) ->
      ((exists e, In e (get_bracket_breakdown x year)
                  /\ Tranche e = bracket_name b) <-> b_min b < x)
      /\ (x <= b_min b ->
          forall e, In e (get_bracket_breakdown x year) ->
                    Tranche e <> bracket_name b)
      /\ (b_min b < x -> 0 < taxable_in_bracket x b))
  /\ (forall (year : string) (x : float) (b : bracket float),
      In b (brackets_of year) ->
      (exists e, In e (get_bracket_breakdown x year)
                 /\ Tranche e = bracket_name b)
      <-> PrimFloat.ltb (b_min b) x = true).
Proof.
  split; [|split].
  - intros num N income year. apply breakdown_in_filter.
  - intros year x b Hb.
    pose proof (breakdown_row_iff x (brackets_of year) b
                  (registry_names_Q year) Hb) as Hiff.
    unfold ngt in Hiff. cbn [nlt Number_Q] in Hiff.
    rewrite Qltb_lt in Hiff. split; [exact Hiff|]. split.
    + intros Hle e He Hname.
      assert (Hlt : b_min b < x) by (apply Hiff; exists e; split; assumption).
      lra.
    + apply (taxable_in_bracket_pos (brackets_of year) 0);
        [apply registry_valid | assumption].
  - intros year x b Hb.
    apply (breakdown_row_iff x (brackets_of year) b
             (registry_names_float year) Hb).
Qed.

Lemma breakdown_rows_witness :
  let b := mk_bracket (num := Q) 25659 (Some 73369) 0.30 in
  In b (brackets_of "2025")
  /\ ((exists e, In e (get_bracket_breakdown 50000 "2025")
                 /\ Tranche e = bracket_name b) <-> b_min b < 50000)
  /\ (50000 <= b_min b ->
      forall e, In e (get_bracket_breakdown 50000 "2025") ->
                Tranche e <> bracket_name b)
  /\ (b_min b < 50000 -> 0 < taxable_in_bracket 50000 b).
Proof.
  cbv zeta. split; [right; right; left; reflexivity|].
  apply (proj1 (proj2 breakdown_rows) "2025" 50000
           (mk_bracket 25659 (Some 73369) 0.30)).
  right; right; left; reflexivity.
Defined.

(** ** The boundary and the worked scenario *)

(** C6. An income equal to the lower bound of a bracket is not taxed in it:
    in both arithmetics neither loop does anything for that bracket, the
    comparison being strict. In particular, for 2025 and the income 10064,
    only the bracket from 0 has a row and [calculate_tax] is zero. *)
Theorem lower_bound_is_strict :
  (forall (b : bracket Q) (total_tax : Q) (rows : list (entry Q)),
      tax_step (b_min b) total_tax b = total_tax
      /\ breakdown_step (b_min b) rows b = rows)
  /\ (forall (b : bracket float) (total_tax : float) (rows : list (entry float)),
      tax_step (b_min b) total_tax b = total_tax
      /\ breakdown_step (b_min b) rows b = rows)
  /\ calculate_tax (num := Q) 10064 "2025" == 0
  /\ map Tranche (get_bracket_breakdown (num := Q) 10064 "2025")
     = ["0 $ - 10,064 $"%string]
  /\ calculate_tax (num := float) (nlit 10064) "2025" = nlit 0
  /\ map Tranche (get_bracket_breakdown (num := float) (nlit 10064) "2025")
     = ["0 $ - 10,064 $"%string].
Proof.
  split; [|split].
  - intros b total_tax rows.
    unfold tax_step, breakdown_step, ngt. cbn [nlt Number_Q].
    assert (H : Qltb (b_min b) (b_min b) = false) by (apply Qltb_ge; lra).
    rewrite H. split; reflexivity.
  - intros b total_tax rows.
    unfold tax_step, breakdown_step, ngt. cbn [nlt Number_float].
    rewrite float_ltb_irrefl. split; reflexivity.
  - repeat split; vm_compute; reflexivity.
Qed.

(** C7. The scenario of 2025 with an income of 50,000 and neither
    deductions nor credits. Over the rationals the three brackets reached
    contribute exactly 0, 1,715.45 and 7,302.30, the tax is 9,017.75, the
    effective rate 18.0355 %, shown as 18.04 %, and the net income
    40,982.25. Over the floats the rows and the metrics show the same
    texts, and the tax and the net income are the doubles 9017.75 and
    40982.25. *)
Theorem scenario_50000 :
  let rows := [
    ("0 $ - 10,064 $", "0%", "10,064.00 $", "0.00 $");
    ("10,064 $ - 25,659 $", "11%", "15,595.00 $", "1,715.45 $");
    ("25,659 $ - 73,369 $", "30%", "24,341.00 $", "7,302.30 $") ]%string in
  (map row_text (get_bracket_breakdown (num := Q) 50000 "2025") = rows
   /\ Forall2 Qeq
        (map tax_amount_raw (get_bracket_breakdown (num := Q) 50000 "2025"))
        [0; 1715.45; 7302.30]
   /\ calculate_tax (num := Q) 50000 "2025" == 9017.75
   /\ exists s, summarize (num := Q) 50000 0 0 = Some s
        /\ taxable_income s == 50000
        /\ total_tax s == 9017.75
        /\ effective_rate s == 18.0355
        /\ net_income s == 40982.25
        /\ display_money (total_tax s) = "9,017.75 $"%string
        /\ display_rate (effective_rate s) = "18.04%"%string
        /\ display_money (net_income s) = "40,982.25 $"%string)
  /\ (map row_text (get_bracket_breakdown (num := float) (nlit 50000) "2025")
      = rows
      /\ calculate_tax (num := float) (nlit 50000) "2025" = nlit 9017.75
      /\ exists s, summarize (num := float) (nlit 50000) (nlit 0) (nlit 0)
                   = Some s
           /\ total_tax s = nlit 9017.75
           /\ net_income s = nlit 40982.25
           /\ display_money (total_tax s) = "9,017.75 $"%string
           /\ display_rate (effective_rate s) = "18.04%"%string
           /\ display_money (net_income s) = "40,982.25 $"%string).
Proof.
  cbv zeta. split.
  - split; [vm_compute; reflexivity|].
    split; [repeat constructor; vm_compute; reflexivity|].
    split; [vm_compute; reflexivity|].
    eexists. split; [vm_compute; reflexivity|].
    repeat split; vm_compute; reflexivity.
  - split; [vm_compute; reflexivity|].
    split; [vm_compute; reflexivity|].
    eexists. split; [vm_compute; reflexivity|].
    repeat split; vm_compute; reflexivity.
Qed.

(** * Further properties of the engine and of the page

    What follows goes beyond the statements above: the marginal rate, the
    progressivity of the tax, the shape of the breakdown, and the figures
    the three tabs derive. *)

(** ** Marginal and average rates on a partition *)

Section Marginal.
Implicit Types (x y lo a r : Q) (b : bracket Q) (bs : list (bracket Q)).






End Marginal.

(** ** The tax of the registry: marginal rate, progressivity, exemption *)













(** ** The shape of the breakdown *)

Section Shape.
Context {num : Type} {N : Number num}.
Implicit Types (income : num) (b : bracket num) (brackets : list (bracket num)).

Lemma breakdown_in_nil income brackets :
  get_bracket_breakdown_in income brackets = []
  <-> forall b, In b brackets -> reaches_into income b = false.
Proof.
  rewrite breakdown_in_filter. split.
  - intros Hnil b Hb.
    destruct (reaches_into income b) eqn:Hr; [|reflexivity].
    assert (Hin : In (entry_of income b)
                     (map (entry_of income)
                          (List.filter (reaches_into income) brackets))).
    { apply in_map, filter_In. split; assumption. }
    rewrite Hnil in Hin. destruct Hin.
  - intros Hall.
    induction brackets as [|h rest IH]; [reflexivity|].
    simpl List.filter. rewrite (Hall h) by (left; reflexivity).
    apply IH. intros b Hb. apply Hall. right. assumption.
Qed.

Lemma filter_length_le {A : Type} (f g : A -> bool) (l : list A) :
  (forall a, f a = true -> g a = true) ->
  (length (List.filter f l) <= length (List.filter g l))%nat.
Proof.
  intros Hfg. induction l as [|a l IH]; [reflexivity|].
  simpl. destruct (f a) eqn:Hf.
  - rewrite (Hfg a Hf). simpl. lia.
  - destruct (g a); simpl; lia.
Qed.

End Shape.

Lemma float_pos_of_above (lo x : float) :
  PrimFloat.leb (nlit 0) lo = true -> PrimFloat.ltb lo x = true ->
  PrimFloat.ltb (nlit 0) x = true.
Proof.
  rewrite FloatAxioms.leb_spec, !FloatAxioms.ltb_spec.
  change (Prim2SF (nlit 0)) with (S754_zero false).
  unfold SFleb, SFltb, SFcompare.
  destruct (Prim2SF lo) as [s|s| |s m e], (Prim2SF x) as [s'|s'| |s' m' e'];
    repeat match goal with s : bool |- _ => destruct s end;
    simpl; intros; try reflexivity; try discriminate.
Qed.

Lemma reached_prefix (x : Q) (bs : list (bracket Q)) : forall lo,
  partitions_from lo bs = true ->
  exists k, List.filter (reaches_into x) bs = firstn k bs.
Proof.
  induction bs as [|b rest IH]; intros lo Hp; [discriminate|].
  pose proof (partitions_from_cons lo b rest Hp) as (Hlo & _ & _ & Hmax).
  change (List.filter (reaches_into x) (b :: rest))
    with (if reaches_into x b
          then b :: List.filter (reaches_into x) rest
          else List.filter (reaches_into x) rest).
  destruct (reaches_into x b) eqn:Hcmp;
    unfold reaches_into in Hcmp; cbn [nlt Number_Q] in Hcmp;
    [apply Qltb_lt in Hcmp | apply Qltb_ge in Hcmp].
  - destruct (b_max b) as [u|].
    + destruct Hmax as [_ Hrest]. destruct (IH u Hrest) as [k Hk].
      exists (S k). cbn [firstn]. rewrite Hk. reflexivity.
    + subst rest. exists 1%nat. reflexivity.
  - exists 0%nat. cbn [firstn].
    assert (Hnil : get_bracket_breakdown_in x rest = []).
    { destruct (b_max b) as [u|]; [|subst rest; reflexivity].
      destruct Hmax as [Hlt Hrest].
      apply breakdown_in_nil. intros b' Hb'.
      pose proof (lower_bound_ge rest u b' Hrest Hb').
      unfold reaches_into. cbn [nlt Number_Q]. apply Qltb_ge. lra. }
    rewrite breakdown_in_filter in Hnil.
    apply map_eq_nil in Hnil. exact Hnil.
Qed.

(** X4. For every year string the breakdown is empty exactly when the
    income is not positive: over the rationals when [x <= 0], over the
    floats when the test [0 < x] fails (which includes NaN). *)
Theorem breakdown_is_empty_iff_no_income :
  forall (year : string),
    (forall x : Q, get_bracket_breakdown x year = [] <-> x <= 0)
    /\ (forall x : float,
          get_bracket_breakdown x year = []
          <-> PrimFloat.ltb (nlit 0) x = false).
Proof.
  intros year. unfold get_bracket_breakdown. split; intros x.
  - rewrite breakdown_in_nil.
    pose proof (registry_valid year) as Hv. unfold valid_table in Hv.
    split.
    + intros Hall. destruct (brackets_of year) as [|b0 rest]; [discriminate|].
      apply partitions_from_cons in Hv as (Hlo & _).
      specialize (Hall b0 (or_introl eq_refl)).
      unfold reaches_into in Hall. cbn [nlt Number_Q] in Hall.
      apply Qltb_ge in Hall. lra.
    + intros Hx b Hb.
      pose proof (lower_bound_ge _ 0 b Hv Hb).
      unfold reaches_into. cbn [nlt Number_Q]. apply Qltb_ge. lra.
  - rewrite breakdown_in_nil. split.
    + intros Hall.
      pose proof (brackets_of_registered (num := float) year) as Hin.
      assert (Hhead : forallb
                (fun t => match t with
                          | b :: _ => PrimFloat.eqb (b_min b) (nlit 0)
                          | [] => false
                          end)
                (map (brackets_of (num := float)) registered_years) = true)
        by (vm_compute; reflexivity).
      rewrite forallb_forall in Hhead. specialize (Hhead _ Hin).
      destruct (brackets_of year) as [|b0 rest]; [discriminate|].
      specialize (Hall b0 (or_introl eq_refl)).
      unfold reaches_into in Hall. cbn [nlt Number_float] in Hall.
      destruct (PrimFloat.ltb (nlit 0) x) eqn:Hpos; [|reflexivity].
      rewrite <- Hall. symmetry.
      revert Hhead Hpos. rewrite FloatAxioms.eqb_spec, !FloatAxioms.ltb_spec.
      change (Prim2SF (nlit 0)) with (S754_zero false).
      unfold SFeqb, SFltb, SFcompare.
      destruct (Prim2SF (b_min b0)) as [s|s| |s m e],
               (Prim2SF x) as [s'|s'| |s' m' e'];
        repeat match goal with s : bool |- _ => destruct s end;
        simpl; intros; try reflexivity; try discriminate.
      all: destruct (e ?= 0)%Z; try discriminate;
        destruct (Pos.compare_cont Eq m 1); discriminate.
    + intros Hx b Hb.
      destruct (reaches_into x b) eqn:Hr; [|reflexivity].
      unfold reaches_into in Hr. cbn [nlt Number_float] in Hr.
      rewrite <- Hx. symmetry.
      apply (float_pos_of_above (b_min b)); [|exact Hr].
      apply (registry_float_lower_bounds year), Hb.
Qed.

(** X5. Over the rationals, for every year string, the rows of the
    breakdown are those of the first [k] brackets of the table, for some
    [k]: the brackets reached are the lowest ones, without a gap; and a
    larger income never has fewer rows. *)
Theorem breakdown_rows_are_lowest_brackets :
  forall (year : string) (x y : Q),
    (exists k, get_bracket_breakdown x year
               = map (entry_of x) (firstn k (brackets_of year)))
    /\ (x <= y ->
        (length (get_bracket_breakdown x year)
         <= length (get_bracket_breakdown y year))%nat).
Proof.
  intros year x y. unfold get_bracket_breakdown.
  rewrite !breakdown_in_filter. split.
  - destruct (reached_prefix x (brackets_of year) 0 (registry_valid year))
      as [k Hk].
    exists k. rewrite Hk. reflexivity.
  - intros Hxy. rewrite !length_map. apply filter_length_le.
    intros b. unfold reaches_into. cbn [nlt Number_Q].
    rewrite !Qltb_lt. lra.
Qed.

Lemma breakdown_rows_are_lowest_brackets_witness :
  (exists k, get_bracket_breakdown (num := Q) 30000 "2024"
             = map (entry_of 30000) (firstn k (brackets_of "2024")))
  /\ 30000 <= 80000
  /\ Nat.le (length (get_bracket_breakdown (num := Q) 30000 "2024"))
            (length (get_bracket_breakdown (num := Q) 80000 "2024")).
Proof.
  split; [apply (breakdown_rows_are_lowest_brackets "2024" 30000 80000)|].
  split; [vm_compute; discriminate|].
  apply (proj2 (breakdown_rows_are_lowest_brackets "2024" 30000 80000)).
  vm_compute; discriminate.
Defined.

(** ** The tables of the registry *)

(** X6. Every table a year string can resolve to has five brackets, starts
    at 0 with an exempt bracket, has each upper bound equal to the next
    lower bound with bounds and rates strictly ascending, ends with the open
    bracket, and has rates between 0 and 0.45. *)
Theorem registry_tables_partition_the_incomes :
  forall (year : string),
    length (brackets_of (num := Q) year) = 5%nat
    /\ (exists b0 : bracket Q,
          hd_error (brackets_of year) = Some b0
          /\ b_min b0 == 0 /\ b_rate b0 == 0)
    /\ (forall (i : nat) (b b' : bracket Q),
          brackets_of year !! i = Some b ->
          brackets_of year !! S i = Some b' ->
          b_max b = Fin (b_min b') /\ b_min b < b_min b'
          /\ b_rate b < b_rate b')
    /\ (forall b : bracket Q,
          last (brackets_of year) = Some b -> b_max b = Inf)
    /\ (forall b : bracket Q,
          In b (brackets_of year) -> 0 <= b_rate b /\ b_rate b <= 0.45).
Proof.
  intros year.
  pose proof (brackets_of_registered (num := Q) year) as Hin.
  remember (brackets_of year) as table eqn:Htable. clear Htable.
  simpl in Hin.
  destruct Hin as [<-|[<-|[<-|[<-|[]]]]];
    match goal with
    | |- context [brackets_of ?y] =>
        let t := eval vm_compute in (brackets_of (num := Q) y) in
        change (brackets_of y) with t
    end;
    (split; [reflexivity|]);
    (split; [eexists; split; [reflexivity|split; reflexivity]|]);
    (split; [intros i b b' Hb Hb';
             do 5 (destruct i as [|i];
                   [simplify_eq/=; repeat split; reflexivity|]);
             simplify_eq/=|]);
    (split; [intros b Hb; vm_compute in Hb; injection Hb as <-; reflexivity|]);
    intros b Hb; simpl in Hb;
    repeat (destruct Hb as [<-|Hb]; [split; vm_compute; discriminate|]);
    destruct Hb.
Qed.

(** ** The bar chart of the first tab *)

Section Bars.
Context {num : Type} {N : Number num}.
Implicit Types (taxable_income : num) (r : bracket_range num).

Lemma append_loop_map {A B : Type} (f : A -> B) (l : list A) (acc : list B) :
  fold_left (fun rows a => rows ++ [f a]) l acc = acc ++ map f l.
Proof.
  revert acc. induction l as [|a l IH]; intros acc; simpl.
  - rewrite app_nil_r. reflexivity.
  - rewrite IH, <- app_assoc. reflexivity.
Qed.

Lemma bracket_ranges_map taxable_income :
  bracket_ranges taxable_income
  = map (bracket_range_of taxable_income) (brackets_of "2025").
Proof. unfold bracket_ranges. apply (append_loop_map _ _ []). Qed.

Lemma range_name_of taxable_income (b : bracket num) :
  range_name (bracket_range_of taxable_income b) = bracket_name b.
Proof. unfold bracket_range_of, bracket_name. destruct (b_max b); reflexivity. Qed.

Lemma range_min_of taxable_income (b : bracket num) :
  range_min (bracket_range_of taxable_income b) = b_min b.
Proof. unfold bracket_range_of. destruct (b_max b); reflexivity. Qed.

(** As long as the indices stay within the palette, the loop fails on no
    range and appends one name, one amount and one colour per range. *)
Lemma bar_loop taxable_income (rs : list (bracket_range num)) :
  forall (i0 : nat) (lists : bars num),
    (i0 + length rs <= length color_palette)%nat ->
    exists colors,
      fold_left (bar_step taxable_income)
                (combine (seq i0 (length rs)) rs) (Some lists)
      = Some {| bracket_names := bracket_names lists ++ map range_name rs;
                income_in_bracket :=
                  income_in_bracket lists ++ map (bar_amount taxable_income) rs;
                colors_bar := colors_bar lists ++ colors |}
      /\ length colors = length rs.
Proof.
  induction rs as [|r rs IH]; intros i0 lists Hlen.
  - exists []. simpl. rewrite !app_nil_r. destruct lists; split; reflexivity.
  - change (length (r :: rs)) with (S (length rs)) in Hlen.
    simpl combine. simpl fold_left.
    assert (Hcolor : is_Some (color_palette !! i0))
      by (apply lookup_lt_is_Some; lia).
    destruct Hcolor as [color Hcolor].
    rewrite Hcolor. cbn [map].
    destruct (ngt taxable_income (range_min r)) eqn:Hgt.
    + assert (Ha : bar_amount taxable_income r
                   = nsub (py_min taxable_income (range_max r)) (range_min r))
        by (unfold bar_amount; rewrite Hgt; reflexivity).
      rewrite Ha.
      edestruct (IH (S i0)) as (colors & -> & Hcolors); [lia|].
      exists (color :: colors).
      cbn [bracket_names income_in_bracket colors_bar length].
      rewrite <- !app_assoc. split; [reflexivity | congruence].
    + assert (Ha : bar_amount taxable_income r = nlit 0)
        by (unfold bar_amount; rewrite Hgt; reflexivity).
      rewrite Ha.
      edestruct (IH (S i0)) as (colors & -> & Hcolors); [lia|].
      exists ("#F5E6FF"%string :: colors).
      cbn [bracket_names income_in_bracket colors_bar length].
      rewrite <- !app_assoc. split; [reflexivity | congruence].
Qed.

End Bars.

Lemma income_bars_spec {num : Type} {N : Number num} (taxable_income : num) :
  exists b : bars num,
    income_bars taxable_income = Some b
    /\ bracket_names b = map bracket_name (brackets_of "2025")
    /\ income_in_bracket b
       = map (fun br => bar_amount taxable_income
                          (bracket_range_of taxable_income br))
             (brackets_of "2025")
    /\ length (colors_bar b) = 5%nat.
Proof.
  unfold income_bars, enumerate.
  destruct (bar_loop taxable_income (bracket_ranges taxable_income) 0
              {| bracket_names := []; income_in_bracket := [];
                 colors_bar := [] |}) as (colors & Hfold & Hcolors).
  { rewrite bracket_ranges_map, length_map. reflexivity. }
  eexists. split; [exact Hfold|]. cbn [bracket_names income_in_bracket colors_bar].
  rewrite !app_nil_l, Hcolors, bracket_ranges_map, !map_map, !length_map.
  split; [apply map_ext; intros b; apply range_name_of|].
  split; reflexivity.
Qed.

(** X7. In either arithmetic and for every taxable income, the second loop
    of the bar chart never indexes the palette out of range; it yields one
    bar per bracket of 2025, reached or not (five names, amounts and
    colours), named like the rows of the breakdown, each amount being what
    the loop computes for the range. *)
Theorem income_bars_cover_every_bracket :
  forall (num : Type) (N : Number num) (taxable_income : num),
    exists b : bars num,
      income_bars taxable_income = Some b
      /\ bracket_names b = map bracket_name (brackets_of "2025")
      /\ income_in_bracket b
         = map (fun br => bar_amount taxable_income
                            (bracket_range_of taxable_income br))
               (brackets_of "2025")
      /\ length (bracket_names b) = 5%nat
      /\ length (income_in_bracket b) = 5%nat
      /\ length (colors_bar b) = 5%nat.
Proof.
  intros num N taxable_income.
  destruct (income_bars_spec taxable_income) as (b & Hb & Hnames & Hamounts & Hc).
  exists b. rewrite Hnames, Hamounts, !length_map.
  repeat split; try assumption; reflexivity.
Qed.

Section BarsExact.
Implicit Types (x lo : Q) (b : bracket Q) (bs : list (bracket Q)).

Lemma total_acc (xs : list Q) (acc : Q) :
  fold_left Qplus xs acc == acc + total xs.
Proof.
  unfold total. cbn [nadd nlit Number_Q].
  revert acc. induction xs as [|a xs IH]; intros acc; simpl.
  - lra.
  - rewrite (IH (acc + a)), (IH (0 + a)). lra.
Qed.

Lemma total_cons (a : Q) (xs : list Q) : total (a :: xs) == a + total xs.
Proof.
  unfold total at 1. cbn [nadd nlit Number_Q]. simpl fold_left.
  rewrite total_acc. lra.
Qed.

(** The number put in place of the open end lies beyond the income, so the
    bar of a bracket shows the taxable amount of its row, or nothing. *)
Lemma bar_amount_taxable x b :
  bar_amount x (bracket_range_of x b)
  = if reaches_into x b then taxable_in_bracket x b else 0.
Proof.
  unfold bar_amount, bracket_range_of, reaches_into, taxable_in_bracket, ngt.
  destruct (b_max b) as [u|];
    cbn [range_min range_max min_bound nlt nsub nadd nlit Number_Q];
    [reflexivity|].
  case_Qltb; [|reflexivity].
  unfold py_min, py_max, ngt. cbn [nlt Number_Q].
  repeat case_Qltb; try reflexivity; lra.
Qed.

Lemma taxable_amounts_sum x bs : forall lo,
  partitions_from lo bs = true -> lo <= x ->
  total (map (fun b => if reaches_into x b then taxable_in_bracket x b else 0)
             bs) == x - lo.
Proof.
  induction bs as [|b rest IH]; intros lo Hp Hx; [discriminate|].
  apply partitions_from_cons in Hp as (Hlo & _ & _ & Hmax).
  cbn [map]. rewrite total_cons.
  unfold reaches_into at 1, taxable_in_bracket at 1.
  cbn [nlt nsub Number_Q]. rewrite min_bound_Q.
  destruct (b_max b) as [u|].
  - destruct Hmax as [Hlt Hrest].
    destruct (Qlt_le_dec u x) as [Hux|Hxu].
    + rewrite (IH u Hrest) by lra. repeat case_Qltb; lra.
    + assert (Hzero : total (map (fun b0 => if reaches_into x b0
                                            then taxable_in_bracket x b0
                                            else 0) rest) == 0).
      { clear IH. revert Hrest Hxu. generalize u. clear.
        induction rest as [|h t IHt]; intros u Hrest Hxu;
          [unfold total; simpl; reflexivity|].
        pose proof (partitions_from_cons u h t Hrest) as (Hlo & _ & _ & Hmax).
        cbn [map]. rewrite total_cons.
        unfold reaches_into at 1. cbn [nlt Number_Q].
        case_Qltb; [lra|].
        destruct (b_max h) as [uh|].
        - destruct Hmax as [Hlt Hrest']. rewrite (IHt uh Hrest') by lra. lra.
        - subst t. unfold total. simpl. lra. }
      rewrite Hzero. repeat case_Qltb; lra.
  - subst rest. unfold total at 1. simpl fold_left. cbn [nlit Number_Q].
    case_Qltb; lra.
Qed.

End BarsExact.

(** X8. Over the rationals, the bar of each bracket of 2025 shows the
    taxable amount of that bracket's row in the breakdown (and 0 for a
    bracket without a row: the cap put on the open bracket never cuts the
    income), and the bars of a non-negative taxable income add up to it. *)
Theorem income_bars_add_up_to_income :
  forall (taxable_income : Q),
    exists b : bars Q,
      income_bars taxable_income = Some b
      /\ income_in_bracket b
         = map (fun br => if reaches_into taxable_income br
                          then taxable_in_bracket taxable_income br
                          else 0)
               (brackets_of "2025")
      /\ (0 <= taxable_income -> total (income_in_bracket b) == taxable_income).
Proof.
  intros taxable_income.
  destruct (income_bars_spec taxable_income) as (b & Hb & _ & Hamounts & _).
  exists b. split; [exact Hb|].
  assert (Heq : income_in_bracket b
                = map (fun br => if reaches_into taxable_income br
                                 then taxable_in_bracket taxable_income br
                                 else 0) (brackets_of "2025")).
  { rewrite Hamounts. apply map_ext. intros br. apply bar_amount_taxable. }
  split; [exact Heq|].
  intros Hpos. rewrite Heq.
  rewrite (taxable_amounts_sum taxable_income (brackets_of "2025") 0
             (registry_valid "2025") Hpos).
  lra.
Qed.

Lemma income_bars_add_up_to_income_witness :
  exists b : bars Q,
    income_bars 50000 = Some b
    /\ income_in_bracket b
       = map (fun br => if reaches_into 50000 br
                        then taxable_in_bracket 50000 br
                        else 0)
             (brackets_of "2025")
    /\ 0 <= 50000 /\ total (income_in_bracket b) == 50000.
Proof.
  destruct (income_bars_add_up_to_income 50000) as (b & Hb & Hamounts & Hsum).
  exists b. repeat (split; [assumption|]).
  split; [vm_compute; discriminate|].
  apply Hsum. vm_compute; discriminate.
Defined.

(** ** The figures of the summary panel and of a scenario *)

Section Figures.
Implicit Types (income d c x a : Q) (s : summary Q).







End Figures.








(** X13. In either arithmetic, a scenario of the comparison tab with a
    positive income carries exactly the figures of the summary panel of the
    first tab for the same income, deductions and credits. *)
Theorem scenario_agrees_with_summary :
  forall (num : Type) (N : Number num) (income deductions credits : num),
    ngt income (nlit 0) = true ->
    summarize income deductions credits
    = Some {| taxable_income :=
                sc_taxable_income (compare_scenario income deductions credits);
              gross_tax :=
                calculate_tax
                  (sc_taxable_income (compare_scenario income deductions credits))
                  "2025";
              total_tax :=
                sc_tax_owed (compare_scenario income deductions credits);
              effective_rate :=
                sc_effective_rate (compare_scenario income deductions credits);
              net_income :=
                sc_net_income (compare_scenario income deductions credits) |}.
Proof.
  intros num N income d c Hpos.
  unfold summarize, compare_scenario.
  cbn [sc_taxable_income sc_tax_owed sc_effective_rate sc_net_income].
  rewrite Hpos. reflexivity.
Qed.

Lemma scenario_agrees_with_summary_witness :
  ngt (num := float) (nlit 60000) (nlit 0) = true
  /\ summarize (num := float) (nlit 60000) (nlit 5000) (nlit 1000)
     = Some {| taxable_income :=
                 sc_taxable_income
                   (compare_scenario (nlit 60000) (nlit 5000) (nlit 1000));
               gross_tax :=
                 calculate_tax
                   (sc_taxable_income
                      (compare_scenario (nlit 60000) (nlit 5000) (nlit 1000)))
                   "2025";
               total_tax :=
                 sc_tax_owed
                   (compare_scenario (nlit 60000) (nlit 5000) (nlit 1000));
               effective_rate :=
                 sc_effective_rate
                   (compare_scenario (nlit 60000) (nlit 5000) (nlit 1000));
               net_income :=
                 sc_net_income
                   (compare_scenario (nlit 60000) (nlit 5000) (nlit 1000)) |}.
Proof.
  split; [vm_compute; reflexivity|].
  apply (scenario_agrees_with_summary float Number_float).
  vm_compute; reflexivity.
Defined.



(** ** The comparison by year *)

(** The order of [sorted] is a total order on strings. *)
Lemma str_le_compare (a b : string) :
  str_le a b <-> a = b \/ OrderedTypeEx.String_as_OT.lt a b.
Proof.
  unfold str_le, String.leb.
  pose proof (OrderedTypeEx.String_as_OT.cmp_eq a b) as Heq.
  pose proof (OrderedTypeEx.String_as_OT.cmp_lt a b) as Hlt.
  unfold OrderedTypeEx.String_as_OT.cmp in Heq, Hlt.
  destruct (String.compare a b) eqn:Hc; split; intros H;
    try reflexivity; try discriminate.
  - left. apply Heq. reflexivity.
  - right. apply Hlt. reflexivity.
  - destruct H as [H|H]; [apply Heq in H | apply Hlt in H]; discriminate.
Qed.

#[export] Instance str_le_total : Total str_le.
Proof. intros a b. apply String.leb_total. Qed.

#[export] Instance str_le_antisym : AntiSymm eq str_le.
Proof. intros a b Hab Hba. apply String.leb_antisym; assumption. Qed.

#[export] Instance str_le_trans : Transitive str_le.
Proof.
  intros a b c Hab Hbc. apply str_le_compare.
  apply str_le_compare in Hab as [->|Hab], Hbc as [->|Hbc].
  - left. reflexivity.
  - right. assumption.
  - right. assumption.
  - right. eapply OrderedTypeEx.String_as_OT.lt_trans; eassumption.
Qed.

Lemma sorted_Permutation (l : list string) : sorted l ≡ₚ l.
Proof. apply merge_sort_Permutation. Qed.

Lemma sorted_Sorted (l : list string) : Sorted str_le (sorted l).
Proof. apply Sorted_merge_sort. apply _. Qed.

Lemma sorted_of_permutation (l l' : list string) :
  l ≡ₚ l' -> sorted l = sorted l'.
Proof.
  intros Hp. apply (Sorted_unique str_le); try apply sorted_Sorted.
  rewrite !sorted_Permutation. exact Hp.
Qed.

Lemma sorted_nonempty (l : list string) : l <> [] -> sorted l <> [].
Proof.
  intros Hl Hs. apply Hl. apply Permutation_nil.
  rewrite <- Hs. apply sorted_Permutation.
Qed.

Section History.
Context {num : Type} {N : Number num}.
Implicit Types (hist_income : num) (years : list string).

(** The column of differences the loop builds from a given [prev_tax]: the
    first year against [prev_tax] (or ["N/A"]), every later year against
    the year just before it in the list. *)
Definition difference_column hist_income (prev_tax : option num) years
  : list string :=
  match years with
  | [] => []
  | y :: rest =>
      match prev_tax with
      | Some prev => difference_text (calculate_tax hist_income y) prev
      | None => "N/A"%string
      end
      :: map (fun p => difference_text (calculate_tax hist_income (snd p))
                                       (calculate_tax hist_income (fst p)))
             (combine years rest)
  end.

Lemma hist_loop hist_income years :
  forall (data : hist_data) (prev_tax : option num),
    fst (fold_left (hist_step hist_income) years (data, prev_tax))
    = {| Annee := Annee data ++ years;
         Impot_Du :=
           Impot_Du data
           ++ map (fun y => display_money (calculate_tax hist_income y)) years;
         Taux_Effectif :=
           Taux_Effectif data
           ++ map (fun y => display_rate
                              (yc_effective_rate
                                 (year_comparison_of hist_income y))) years;
         Revenu_Net :=
           Revenu_Net data
           ++ map (fun y => display_money
                              (nsub hist_income (calculate_tax hist_income y)))
                  years;
         Difference_vs_Annee_Precedente :=
           Difference_vs_Annee_Precedente data
           ++ difference_column hist_income prev_tax years |}.
Proof.
  induction years as [|y rest IH]; intros data prev_tax.
  - simpl. rewrite !app_nil_r. destruct data; reflexivity.
  - cbn [fold_left].
    rewrite (surjective_pairing (hist_step hist_income (data, prev_tax) y)).
    rewrite IH. unfold hist_step.
    cbn [fst snd Annee Impot_Du Taux_Effectif Revenu_Net
         Difference_vs_Annee_Precedente].
    rewrite <- !app_assoc. cbn [map app].
    f_equal. f_equal.
    destruct rest as [|z rest']; reflexivity.
Qed.

Lemma history_shown_iff hist_income years :
  history_shown hist_income years = true
  <-> years <> [] /\ ngt hist_income (nlit 0) = true.
Proof.
  unfold history_shown. destruct years; split.
  - discriminate.
  - intros [H _]. contradiction.
  - intros H. split; [discriminate | exact H].
  - intros [_ H]. exact H.
Qed.

Lemma history_table_spec hist_income years (t : hist_data) :
  history_table hist_income years = Some t ->
  (years <> [] /\ ngt hist_income (nlit 0) = true)
  /\ t = {| Annee := sorted years;
            Impot_Du :=
              map (fun y => display_money (calculate_tax hist_income y))
                  (sorted years);
            Taux_Effectif :=
              map (fun y => display_rate
                              (yc_effective_rate
                                 (year_comparison_of hist_income y)))
                  (sorted years);
            Revenu_Net :=
              map (fun y => display_money
                              (nsub hist_income (calculate_tax hist_income y)))
                  (sorted years);
            Difference_vs_Annee_Precedente :=
              difference_column hist_income None (sorted years) |}.
Proof.
  unfold history_table.
  destruct (history_shown hist_income years) eqn:Hshown; [|discriminate].
  intros [= <-]. split; [apply history_shown_iff, Hshown|].
  rewrite hist_loop. reflexivity.
Qed.

End History.

(** X15. In either arithmetic, when the table by year is shown its rows are
    the selected years in ascending order, each with the tax and the net
    income of that year for the income entered; the first row has ["N/A"]
    as its difference, and every later row has the difference between the
    tax of its year and the tax of the year of the row just above it. *)
Theorem history_table_compares_consecutive_years :
  forall (num : Type) (N : Number num) (hist_income : num)
         (selected_years : list string) (t : hist_data),
    history_table hist_income selected_years = Some t ->
    Annee t = sorted selected_years
    /\ Impot_Du t
       = map (fun y => display_money (calculate_tax hist_income y))
             (sorted selected_years)
    /\ Revenu_Net t
       = map (fun y => display_money
                         (nsub hist_income (calculate_tax hist_income y)))
             (sorted selected_years)
    /\ Difference_vs_Annee_Precedente t
       = "N/A"%string
         :: map (fun p => difference_text (calculate_tax hist_income (snd p))
                                          (calculate_tax hist_income (fst p)))
                (combine (sorted selected_years) (tl (sorted selected_years))).
Proof.
  intros num N hist_income sel t Ht.
  apply history_table_spec in Ht as [[Hne _] ->].
  cbn [Annee Impot_Du Revenu_Net Difference_vs_Annee_Precedente].
  repeat (split; [reflexivity|]).
  pose proof (sorted_nonempty sel Hne) as Hs.
  destruct (sorted sel) as [|y rest]; [contradiction|]. reflexivity.
Qed.

Lemma history_table_compares_consecutive_years_witness :
  exists t : hist_data,
    history_table (num := Q) 75000 ["2025"; "2023"; "2024"]%string = Some t
    /\ Annee t = sorted ["2025"; "2023"; "2024"]%string
    /\ Impot_Du t
       = map (fun y => display_money (calculate_tax (num := Q) 75000 y))
             (sorted ["2025"; "2023"; "2024"]%string)
    /\ Revenu_Net t
       = map (fun y => display_money
                         (nsub (num := Q) 75000 (calculate_tax 75000 y)))
             (sorted ["2025"; "2023"; "2024"]%string)
    /\ Difference_vs_Annee_Precedente t
       = "N/A"%string
         :: map (fun p => difference_text
                            (calculate_tax (num := Q) 75000 (snd p))
                            (calculate_tax 75000 (fst p)))
                (combine (sorted ["2025"; "2023"; "2024"]%string)
                         (tl (sorted ["2025"; "2023"; "2024"]%string))).
Proof.
  eexists. split; [reflexivity|].
  apply (history_table_compares_consecutive_years Q Number_Q 75000
           ["2025"; "2023"; "2024"]%string).
  reflexivity.
Defined.

(** X16. In either arithmetic, the table by year does not depend on the
    order in which the years were selected; it is shown exactly when a year
    is selected and the income is positive; its years are the selection in
    ascending order, while the chart keeps the order of the selection. *)
Theorem history_table_ignores_selection_order :
  forall (num : Type) (N : Number num) (hist_income : num)
         (selected_years : list string),
    (forall other : list string,
        selected_years ≡ₚ other ->
        history_table hist_income selected_years
        = history_table hist_income other)
    /\ (is_Some (history_table hist_income selected_years)
        <-> selected_years <> [] /\ ngt hist_income (nlit 0) = true)
    /\ (forall t : hist_data,
          history_table hist_income selected_years = Some t ->
          Sorted str_le (Annee t) /\ Annee t ≡ₚ selected_years)
    /\ (forall rows : list (year_comparison num),
          year_comparisons hist_income selected_years = Some rows ->
          map yc_year rows = selected_years).
Proof.
  intros num N hist_income sel. split; [|split; [|split]].
  - intros other Hperm. unfold history_table.
    rewrite (sorted_of_permutation sel other Hperm).
    assert (Hshown : history_shown hist_income sel
                     = history_shown hist_income other).
    { unfold history_shown. destruct sel, other; try reflexivity.
      - apply Permutation_nil in Hperm. discriminate.
      - symmetry in Hperm. apply Permutation_nil in Hperm. discriminate. }
    rewrite Hshown. reflexivity.
  - rewrite <- history_shown_iff. unfold history_table.
    destruct (history_shown hist_income sel); split; intros H;
      try reflexivity; try discriminate.
    + eexists. reflexivity.
    + destruct H. discriminate.
  - intros t Ht. apply history_table_spec in Ht as [_ ->]. cbn [Annee].
    split; [apply sorted_Sorted | apply sorted_Permutation].
  - intros rows. unfold year_comparisons.
    destruct (history_shown hist_income sel); [|discriminate].
    intros [= <-]. rewrite append_loop_map, app_nil_l, map_map.
    cbn [yc_year year_comparison_of]. apply map_id.
Qed.

(** X17. When the tax of the previous year is not positive the loop does
    not divide by it: the difference is shown with a percentage of
    [+0.00%], over the rationals and over the floats. *)
Theorem difference_without_previous_tax :
  (forall tax prev : Q,
      prev <= 0 ->
      difference_text tax prev
      = (with_sign (nformat true 2 (tax - prev)) ++ " $ (+0.00%)")%string)
  /\ (forall tax prev : float,
      PrimFloat.ltb (nlit 0) prev = false ->
      difference_text tax prev
      = (with_sign (nformat true 2 (PrimFloat.sub tax prev))
         ++ " $ (+0.00%)")%string).
Proof.
  split; intros tax prev Hprev; unfold difference_text, ngt.
  - cbn [nlt nlit nsub Number_Q].
    rewrite (proj2 (Qltb_ge 0 prev) Hprev). reflexivity.
  - cbn [nlt nsub Number_float]. rewrite Hprev. reflexivity.
Qed.

Lemma difference_without_previous_tax_witness :
  (0 <= 0
   /\ difference_text (num := Q) 9 0
      = (with_sign (nformat true 2 (9 - 0)) ++ " $ (+0.00%)")%string)
  /\ (PrimFloat.ltb (nlit 0) (nlit 0) = false
      /\ difference_text (num := float) (nlit 9) (nlit 0)
         = (with_sign (nformat true 2 (PrimFloat.sub (nlit 9) (nlit 0)))
            ++ " $ (+0.00%)")%string).
Proof.
  split; (split; [vm_compute; (discriminate || reflexivity)|]).
  - apply (proj1 difference_without_previous_tax 9 0). vm_compute; discriminate.
  - apply (proj2 difference_without_previous_tax (nlit 9) (nlit 0)).
    vm_compute; reflexivity.
Defined.
